(** * delayconn: decorators over Go's [net.Conn]

    A shallow embedding of [delayconn.go] and of the package's [oneByteWriter].
    Go methods become computations in a small state-and-panic monad whose
    state is the outside world (whatever the wrapped connection talks to)
    together with a ghost trace of the calls that crossed the package
    boundary: calls of [time.Sleep] and calls on the wrapped connection. *)

From Stdlib Require Import ZArith String Bool List Lia.
From Stdlib Require Import Init.Byte.
Import ListNotations.
Local Open Scope Z_scope.

(** ** Go values *)

(** [[]byte]: the contents of a slice; the nil slice is the empty list. *)
Definition bytes := list byte.

(** Go's [error] is an interface value; [None] is the nil error. *)
Inductive goerror : Type :=
| io_EOF
| io_ErrShortWrite
| os_ErrDeadlineExceeded
| net_ErrClosed
| errors_New (msg : string).

Definition error := option goerror.

(** [time.Duration] is an int64 count of nanoseconds, [time.Time] an instant.
    The package only compares a duration with zero and hands both on. *)
Definition time_Duration := Z.
Definition time_Time := Z.

Record net_Addr : Type := { Network : string; Address : string }.

(** What leaves the package: a sleep, or one call on the wrapped connection. *)
Inductive Event : Type :=
| EvSleep (d : time_Duration)
| EvRead (p : bytes)
| EvWrite (p : bytes)
| EvClose
| EvLocalAddr
| EvRemoteAddr
| EvSetDeadline (t : time_Time)
| EvSetReadDeadline (t : time_Time)
| EvSetWriteDeadline (t : time_Time).

(** A Go call either returns or panics. *)
Inductive outcome (A : Type) : Type :=
| Ok (a : A)
| Panic.
Arguments Ok {A} a.
Arguments Panic {A}.

Definition is_sleep (e : Event) : bool :=
  match e with EvSleep _ => true | _ => false end.

Definition is_write (e : Event) : bool :=
  match e with EvWrite _ => true | _ => false end.

(** The sleep calls of a trace. *)
Definition sleeps (t : list Event) : list Event := filter is_sleep t.

(** ** Connections supplied by the environment

    The transport itself is external: a table of state transformers on the
    state [Env] of the outside world. *)
Record RawConn (Env : Type) : Type := {
  raw_Read : bytes -> Env -> (bytes * Z * error) * Env;
  raw_Write : bytes -> Env -> (Z * error) * Env;
  raw_Close : Env -> error * Env;
  raw_LocalAddr : Env -> net_Addr * Env;
  raw_RemoteAddr : Env -> net_Addr * Env;
  raw_SetDeadline : time_Time -> Env -> error * Env;
  raw_SetReadDeadline : time_Time -> Env -> error * Env;
  raw_SetWriteDeadline : time_Time -> Env -> error * Env
}.

Arguments raw_Read {Env} _ _ _.
Arguments raw_Write {Env} _ _ _.
Arguments raw_Close {Env} _ _.
Arguments raw_LocalAddr {Env} _ _.
Arguments raw_RemoteAddr {Env} _ _.
Arguments raw_SetDeadline {Env} _ _ _.
Arguments raw_SetReadDeadline {Env} _ _ _.
Arguments raw_SetWriteDeadline {Env} _ _ _.

(** ** The operations of the capability set

    One constructor per method of [net.Conn], indexed by what it returns. *)
Inductive op : Type -> Type :=
| OpRead (b : bytes) : op (bytes * Z * error)
| OpWrite (b : bytes) : op (Z * error)
| OpClose : op error
| OpLocalAddr : op net_Addr
| OpRemoteAddr : op net_Addr
| OpSetDeadline (t : time_Time) : op error
| OpSetReadDeadline (t : time_Time) : op error
| OpSetWriteDeadline (t : time_Time) : op error.

Definition is_read_op {A} (o : op A) : bool :=
  match o with OpRead _ => true | _ => false end.

Definition is_write_op {A} (o : op A) : bool :=
  match o with OpWrite _ => true | _ => false end.

(** The event a call of [o] on a connection of the environment leaves. *)
Definition event_of {A} (o : op A) : Event :=
  match o with
  | OpRead b => EvRead b
  | OpWrite b => EvWrite b
  | OpClose => EvClose
  | OpLocalAddr => EvLocalAddr
  | OpRemoteAddr => EvRemoteAddr
  | OpSetDeadline t => EvSetDeadline t
  | OpSetReadDeadline t => EvSetReadDeadline t
  | OpSetWriteDeadline t => EvSetWriteDeadline t
  end.

(** The [error] in the result of [o]; the address accessors report none. *)
Definition op_err {A} (o : op A) : A -> error :=
  match o in op T return T -> error with
  | OpRead _ => fun r => snd r
  | OpWrite _ => fun r => snd r
  | OpClose => fun e => e
  | OpLocalAddr => fun _ => None
  | OpRemoteAddr => fun _ => None
  | OpSetDeadline _ => fun e => e
  | OpSetReadDeadline _ => fun e => e
  | OpSetWriteDeadline _ => fun e => e
  end.

Definition raw_invoke {Env A} (r : RawConn Env) (o : op A) : Env -> A * Env :=
  match o in op T return Env -> T * Env with
  | OpRead b => raw_Read r b
  | OpWrite b => raw_Write r b
  | OpClose => raw_Close r
  | OpLocalAddr => raw_LocalAddr r
  | OpRemoteAddr => raw_RemoteAddr r
  | OpSetDeadline t => raw_SetDeadline r t
  | OpSetReadDeadline t => raw_SetReadDeadline r t
  | OpSetWriteDeadline t => raw_SetWriteDeadline r t
  end.

(** ** The connection of the package's tests

    [rwconn] pairs a reader with a writer; the tests build it from two
    [bytes.Buffer]s.  Its state is the unread part of the first buffer and
    the contents of the second. *)
Module Test.

Record buffers : Type := { unread : bytes; written : bytes }.

(** [bytes.Buffer.Read]: end of file on an empty buffer unless [p] is empty
    too, otherwise [copy(p, unread)]. *)
Definition Buffer_Read (p : bytes) (buf : bytes) : (bytes * Z * error) * bytes :=
  match buf with
  | [] => match p with
          | [] => ((p, 0, None), buf)
          | _ :: _ => ((p, 0, Some io_EOF), buf)
          end
  | _ :: _ =>
      let n := Nat.min (length p) (length buf) in
      ((firstn n buf ++ skipn n p, Z.of_nat n, None), skipn n buf)
  end.

(** [bytes.Buffer.Write]: appends all of [p]. *)
Definition Buffer_Write (p : bytes) (buf : bytes) : (Z * error) * bytes :=
  ((Z.of_nat (length p), None), buf ++ p).

Definition TCPAddr_zero : net_Addr := {| Network := "tcp"; Address := ":0" |}.

Definition rwconn : RawConn buffers := {|
  raw_Read := fun p s =>
    let (res, r') := Buffer_Read p (unread s) in
    (res, {| unread := r'; written := written s |});
  raw_Write := fun p s =>
    let (res, w') := Buffer_Write p (written s) in
    (res, {| unread := unread s; written := w' |});
  raw_Close := fun s => (None, s);
  raw_LocalAddr := fun s => (TCPAddr_zero, s);
  raw_RemoteAddr := fun s => (TCPAddr_zero, s);
  raw_SetDeadline := fun _ s => (None, s);
  raw_SetReadDeadline := fun _ s => (None, s);
  raw_SetWriteDeadline := fun _ s => (None, s)
|}.

(** Nothing in the buffers depends on the clock. *)
Definition still (d : time_Duration) (s : buffers) : buffers := s.

(** A peer that accepts [k] more bytes and then hangs up: the state is [k].
    A write beyond it is cut short and reports the closed connection; every
    other method succeeds. *)
Definition hangup : RawConn nat := {|
  raw_Read := fun p k => ((p, 0, Some io_EOF), k);
  raw_Write := fun p k =>
    if Nat.leb (length p) k
    then ((Z.of_nat (length p), None), (k - length p)%nat)
    else ((Z.of_nat k, Some net_ErrClosed), 0%nat);
  raw_Close := fun k => (None, k);
  raw_LocalAddr := fun k => (TCPAddr_zero, k);
  raw_RemoteAddr := fun k => (TCPAddr_zero, k);
  raw_SetDeadline := fun _ k => (None, k);
  raw_SetReadDeadline := fun _ k => (None, k);
  raw_SetWriteDeadline := fun _ k => (None, k)
|}.

Definition idle (d : time_Duration) (k : nat) : nat := k.

(** A connection that was closed before: every method that reports an
    error reports [net.ErrClosed], and nothing is read or written. *)
Definition closed : RawConn unit := {|
  raw_Read := fun p u => ((p, 0, Some net_ErrClosed), u);
  raw_Write := fun p u => ((0, Some net_ErrClosed), u);
  raw_Close := fun u => (Some net_ErrClosed, u);
  raw_LocalAddr := fun u => (TCPAddr_zero, u);
  raw_RemoteAddr := fun u => (TCPAddr_zero, u);
  raw_SetDeadline := fun _ u => (Some net_ErrClosed, u);
  raw_SetReadDeadline := fun _ u => (Some net_ErrClosed, u);
  raw_SetWriteDeadline := fun _ u => (Some net_ErrClosed, u)
|}.

(** The four bytes of the string the tests put in the read buffer, the
    buffers [TestOneByteReadConn] starts from, two empty buffers, and a
    millisecond. *)
Definition haha : bytes := [x68; x61; x68; x61].

Definition fresh : buffers := {| unread := haha; written := [] |}.

Definition empty : buffers := {| unread := []; written := [] |}.

Definition ms : time_Duration := 1000000.

End Test.

Section Conn.

(** The state of everything outside the package, and what a sleep of the
    calling thread does to it (time passes, deadlines may expire, data may
    arrive). *)
Context {Env : Type}.
Variable time_passes : time_Duration -> Env -> Env.

Record World : Type := mkWorld { env : Env; trace : list Event }.

Definition M (A : Type) : Type := World -> outcome A * World.

Definition ret {A} (a : A) : M A := fun w => (Ok a, w).

Definition bind {A B} (m : M A) (k : A -> M B) : M B :=
  fun w => match m w with
           | (Ok a, w') => k a w'
           | (Panic, w') => (Panic, w')
           end.

(** A method called through a nil interface value: nil pointer dereference. *)
Definition panic {A} : M A := fun w => (Panic, w).

Notation "x <- m ;; k" := (bind m (fun x => k))
  (at level 61, m at next level, right associativity).
Notation "m ;; k" := (bind m (fun _ => k))
  (at level 61, right associativity).

(** [time.Sleep(d)]: an opaque pause of the calling thread. *)
Definition time_Sleep (d : time_Duration) : M unit :=
  fun w => (Ok tt, mkWorld (time_passes d (env w)) (trace w ++ [EvSleep d])).

(** ** Interfaces

    An interface value is a method table, or nil ([None]). *)

Record io_Writer : Type := { Writer_Write : bytes -> M (Z * error) }.

(** [Read(p)] stores into [p]: the model returns the contents of [p] after
    the call together with [n] and [err]. *)
Record io_Reader : Type := { Reader_Read : bytes -> M (bytes * Z * error) }.

Record net_Conn : Type := {
  Conn_Read : bytes -> M (bytes * Z * error);
  Conn_Write : bytes -> M (Z * error);
  Conn_Close : M error;
  Conn_LocalAddr : M net_Addr;
  Conn_RemoteAddr : M net_Addr;
  Conn_SetDeadline : time_Time -> M error;
  Conn_SetReadDeadline : time_Time -> M error;
  Conn_SetWriteDeadline : time_Time -> M error
}.

(** [v.m(args)] on an interface value [v]. *)
Definition call {I A} (v : option I) (m : I -> M A) : M A :=
  match v with
  | Some i => m i
  | None => panic
  end.

(** Passing a [net.Conn] where an [io.Writer] or [io.Reader] is expected;
    a nil connection converts to a nil interface. *)
Definition Conn_Writer (c : option net_Conn) : option io_Writer :=
  option_map (fun i => {| Writer_Write := Conn_Write i |}) c.

Definition Conn_Reader (c : option net_Conn) : option io_Reader :=
  option_map (fun i => {| Reader_Read := Conn_Read i |}) c.

(** [extern] makes a [net.Conn] of a connection of the environment and
    records each call made on it. *)
Definition outside {A} (e : Event) (f : Env -> A * Env) : M A :=
  fun w => let (a, s') := f (env w) in
           (Ok a, mkWorld s' (trace w ++ [e])).

Definition extern (r : RawConn Env) : net_Conn := {|
  Conn_Read := fun p => outside (EvRead p) (raw_Read r p);
  Conn_Write := fun p => outside (EvWrite p) (raw_Write r p);
  Conn_Close := outside EvClose (raw_Close r);
  Conn_LocalAddr := outside EvLocalAddr (raw_LocalAddr r);
  Conn_RemoteAddr := outside EvRemoteAddr (raw_RemoteAddr r);
  Conn_SetDeadline := fun t => outside (EvSetDeadline t) (raw_SetDeadline r t);
  Conn_SetReadDeadline :=
    fun t => outside (EvSetReadDeadline t) (raw_SetReadDeadline r t);
  Conn_SetWriteDeadline :=
    fun t => outside (EvSetWriteDeadline t) (raw_SetWriteDeadline r t)
|}.

(** ** oneByteWriter *)

Record oneByteWriter : Type := { oneByteWriter_w : option io_Writer }.

(** [func (w *oneByteWriter) Write(p []byte) (int, error)] *)
Definition oneByteWriter_Write (w : oneByteWriter) (p : bytes)
  : M (Z * error) :=
  if Nat.eqb (length p) 0 then ret (0, None)
  else call (oneByteWriter_w w) (fun i => Writer_Write i (firstn 1 p)).

(** [func OneByteWriter(w io.Writer) io.Writer] *)
Definition OneByteWriter (w : option io_Writer) : option io_Writer :=
  Some {| Writer_Write := oneByteWriter_Write {| oneByteWriter_w := w |} |}.

(** ** testing/iotest.OneByteReader, from Go's standard library

    [[
    func (r *oneByteReader) Read(p []byte) (int, error) {
        if len(p) == 0 { return 0, nil }
        return r.r.Read(p[0:1])
    }
    ]]
    [p[0:1]] shares its storage with [p], so what the wrapped reader stores
    lands in front of the untouched rest of [p]. *)
Record iotest_oneByteReader : Type := { iotest_r : option io_Reader }.

Definition iotest_oneByteReader_Read (r : iotest_oneByteReader) (p : bytes)
  : M (bytes * Z * error) :=
  if Nat.eqb (length p) 0 then ret (p, 0, None)
  else
    res <- call (iotest_r r) (fun i => Reader_Read i (firstn 1 p)) ;;
    let '(q, n, err) := res in
    ret (q ++ skipn 1 p, n, err).

Definition iotest_OneByteReader (r : option io_Reader) : option io_Reader :=
  Some {| Reader_Read := iotest_oneByteReader_Read {| iotest_r := r |} |}.

(** ** OneByteWriteConn *)

Record OneByteWriteConn : Type := {
  OneByteWriteConn_w : option io_Writer;
  OneByteWriteConn_conn : option net_Conn
}.

Definition NewOneByteWriteConn (conn : option net_Conn) : OneByteWriteConn :=
  {| OneByteWriteConn_conn := conn;
     OneByteWriteConn_w := OneByteWriter (Conn_Writer conn) |}.

Definition OneByteWriteConn_Read (rc : OneByteWriteConn) (b : bytes) :=
  call (OneByteWriteConn_conn rc) (fun c => Conn_Read c b).

Definition OneByteWriteConn_Write (rc : OneByteWriteConn) (b : bytes) :=
  call (OneByteWriteConn_w rc) (fun w => Writer_Write w b).

Definition OneByteWriteConn_Close (rc : OneByteWriteConn) :=
  call (OneByteWriteConn_conn rc) Conn_Close.

Definition OneByteWriteConn_LocalAddr (rc : OneByteWriteConn) :=
  call (OneByteWriteConn_conn rc) Conn_LocalAddr.

Definition OneByteWriteConn_RemoteAddr (rc : OneByteWriteConn) :=
  call (OneByteWriteConn_conn rc) Conn_RemoteAddr.

Definition OneByteWriteConn_SetDeadline (rc : OneByteWriteConn)
  (t : time_Time) :=
  call (OneByteWriteConn_conn rc) (fun c => Conn_SetDeadline c t).

Definition OneByteWriteConn_SetWriteDeadline (rc : OneByteWriteConn)
  (t : time_Time) :=
  call (OneByteWriteConn_conn rc) (fun c => Conn_SetWriteDeadline c t).

Definition OneByteWriteConn_SetReadDeadline (rc : OneByteWriteConn)
  (t : time_Time) :=
  call (OneByteWriteConn_conn rc) (fun c => Conn_SetReadDeadline c t).

(** [*OneByteWriteConn] as a [net.Conn]. *)
Definition OneByteWriteConn_Conn (rc : OneByteWriteConn) : net_Conn := {|
  Conn_Read := OneByteWriteConn_Read rc;
  Conn_Write := OneByteWriteConn_Write rc;
  Conn_Close := OneByteWriteConn_Close rc;
  Conn_LocalAddr := OneByteWriteConn_LocalAddr rc;
  Conn_RemoteAddr := OneByteWriteConn_RemoteAddr rc;
  Conn_SetDeadline := OneByteWriteConn_SetDeadline rc;
  Conn_SetReadDeadline := OneByteWriteConn_SetReadDeadline rc;
  Conn_SetWriteDeadline := OneByteWriteConn_SetWriteDeadline rc
|}.

(** ** OneByteReadConn *)

Record OneByteReadConn : Type := {
  OneByteReadConn_reader : option io_Reader;
  OneByteReadConn_conn : option net_Conn
}.

Definition OneByteReadConn_Read (rc : OneByteReadConn) (b : bytes) :=
  call (OneByteReadConn_reader rc) (fun r => Reader_Read r b).

Definition OneByteReadConn_Write (rc : OneByteReadConn) (b : bytes) :=
  call (OneByteReadConn_conn rc) (fun c => Conn_Write c b).

Definition OneByteReadConn_Close (rc : OneByteReadConn) :=
  call (OneByteReadConn_conn rc) Conn_Close.

Definition OneByteReadConn_LocalAddr (rc : OneByteReadConn) :=
  call (OneByteReadConn_conn rc) Conn_LocalAddr.

Definition OneByteReadConn_RemoteAddr (rc : OneByteReadConn) :=
  call (OneByteReadConn_conn rc) Conn_RemoteAddr.

Definition OneByteReadConn_SetDeadline (rc : OneByteReadConn)
  (t : time_Time) :=
  call (OneByteReadConn_conn rc) (fun c => Conn_SetDeadline c t).

Definition OneByteReadConn_SetReadDeadline (rc : OneByteReadConn)
  (t : time_Time) :=
  call (OneByteReadConn_conn rc) (fun c => Conn_SetReadDeadline c t).

Definition OneByteReadConn_SetWriteDeadline (rc : OneByteReadConn)
  (t : time_Time) :=
  call (OneByteReadConn_conn rc) (fun c => Conn_SetWriteDeadline c t).

(** The composite literal names [reader] only: [conn] keeps its zero value,
    the nil interface. *)
Definition NewOneByteReadConn (conn : option net_Conn) : OneByteReadConn :=
  {| OneByteReadConn_reader := iotest_OneByteReader (Conn_Reader conn);
     OneByteReadConn_conn := None |}.

Definition OneByteReadConn_Conn (rc : OneByteReadConn) : net_Conn := {|
  Conn_Read := OneByteReadConn_Read rc;
  Conn_Write := OneByteReadConn_Write rc;
  Conn_Close := OneByteReadConn_Close rc;
  Conn_LocalAddr := OneByteReadConn_LocalAddr rc;
  Conn_RemoteAddr := OneByteReadConn_RemoteAddr rc;
  Conn_SetDeadline := OneByteReadConn_SetDeadline rc;
  Conn_SetReadDeadline := OneByteReadConn_SetReadDeadline rc;
  Conn_SetWriteDeadline := OneByteReadConn_SetWriteDeadline rc
|}.

(** ** ReadDelayConn *)

Record ReadDelayConn : Type := {
  ReadDelayConn_delay : time_Duration;
  ReadDelayConn_conn : option net_Conn
}.

Definition NewReadDelayConn (delay : time_Duration) (conn : option net_Conn)
  : ReadDelayConn :=
  {| ReadDelayConn_delay := delay; ReadDelayConn_conn := conn |}.

Definition ReadDelayConn_Read (rc : ReadDelayConn) (b : bytes) :=
  (if ReadDelayConn_delay rc >? 0
   then time_Sleep (ReadDelayConn_delay rc) else ret tt) ;;
  call (ReadDelayConn_conn rc) (fun c => Conn_Read c b).

Definition ReadDelayConn_Write (rc : ReadDelayConn) (b : bytes) :=
  call (ReadDelayConn_conn rc) (fun c => Conn_Write c b).

Definition ReadDelayConn_Close (rc : ReadDelayConn) :=
  call (ReadDelayConn_conn rc) Conn_Close.

Definition ReadDelayConn_LocalAddr (rc : ReadDelayConn) :=
  call (ReadDelayConn_conn rc) Conn_LocalAddr.

Definition ReadDelayConn_RemoteAddr (rc : ReadDelayConn) :=
  call (ReadDelayConn_conn rc) Conn_RemoteAddr.

Definition ReadDelayConn_SetDeadline (rc : ReadDelayConn) (t : time_Time) :=
  call (ReadDelayConn_conn rc) (fun c => Conn_SetDeadline c t).

Definition ReadDelayConn_SetReadDeadline (rc : ReadDelayConn)
  (t : time_Time) :=
  call (ReadDelayConn_conn rc) (fun c => Conn_SetReadDeadline c t).

Definition ReadDelayConn_SetWriteDeadline (rc : ReadDelayConn)
  (t : time_Time) :=
  call (ReadDelayConn_conn rc) (fun c => Conn_SetWriteDeadline c t).

Definition ReadDelayConn_Conn (rc : ReadDelayConn) : net_Conn := {|
  Conn_Read := ReadDelayConn_Read rc;
  Conn_Write := ReadDelayConn_Write rc;
  Conn_Close := ReadDelayConn_Close rc;
  Conn_LocalAddr := ReadDelayConn_LocalAddr rc;
  Conn_RemoteAddr := ReadDelayConn_RemoteAddr rc;
  Conn_SetDeadline := ReadDelayConn_SetDeadline rc;
  Conn_SetReadDeadline := ReadDelayConn_SetReadDeadline rc;
  Conn_SetWriteDeadline := ReadDelayConn_SetWriteDeadline rc
|}.

(** ** WriteDelayConn *)

Record WriteDelayConn : Type := {
  WriteDelayConn_delay : time_Duration;
  WriteDelayConn_conn : option net_Conn
}.

Definition NewWriteDelayConn (delay : time_Duration) (conn : option net_Conn)
  : WriteDelayConn :=
  {| WriteDelayConn_delay := delay; WriteDelayConn_conn := conn |}.

Definition WriteDelayConn_Read (rc : WriteDelayConn) (b : bytes) :=
  call (WriteDelayConn_conn rc) (fun c => Conn_Read c b).

Definition WriteDelayConn_Write (rc : WriteDelayConn) (b : bytes) :=
  (if WriteDelayConn_delay rc >? 0
   then time_Sleep (WriteDelayConn_delay rc) else ret tt) ;;
  call (WriteDelayConn_conn rc) (fun c => Conn_Write c b).

Definition WriteDelayConn_Close (rc : WriteDelayConn) :=
  call (WriteDelayConn_conn rc) Conn_Close.

Definition WriteDelayConn_LocalAddr (rc : WriteDelayConn) :=
  call (WriteDelayConn_conn rc) Conn_LocalAddr.

Definition WriteDelayConn_RemoteAddr (rc : WriteDelayConn) :=
  call (WriteDelayConn_conn rc) Conn_RemoteAddr.

Definition WriteDelayConn_SetDeadline (rc : WriteDelayConn) (t : time_Time) :=
  call (WriteDelayConn_conn rc) (fun c => Conn_SetDeadline c t).

Definition WriteDelayConn_SetReadDeadline (rc : WriteDelayConn) (t : time_Time) :=
  call (WriteDelayConn_conn rc) (fun c => Conn_SetReadDeadline c t).

Definition WriteDelayConn_SetWriteDeadline (rc : WriteDelayConn) (t : time_Time) :=
  call (WriteDelayConn_conn rc) (fun c => Conn_SetWriteDeadline c t).

Definition WriteDelayConn_Conn (rc : WriteDelayConn) : net_Conn := {|
  Conn_Read := WriteDelayConn_Read rc;
  Conn_Write := WriteDelayConn_Write rc;
  Conn_Close := WriteDelayConn_Close rc;
  Conn_LocalAddr := WriteDelayConn_LocalAddr rc;
  Conn_RemoteAddr := WriteDelayConn_RemoteAddr rc;
  Conn_SetDeadline := WriteDelayConn_SetDeadline rc;
  Conn_SetReadDeadline := WriteDelayConn_SetReadDeadline rc;
  Conn_SetWriteDeadline := WriteDelayConn_SetWriteDeadline rc
|}.

(** ** DelayConn *)

Record DelayConn : Type := {
  DelayConn_delay : time_Duration;
  DelayConn_conn : option net_Conn
}.

Definition NewDelayConn (delay : time_Duration) (conn : option net_Conn)
  : DelayConn :=
  {| DelayConn_delay := delay; DelayConn_conn := conn |}.

Definition DelayConn_Read (rc : DelayConn) (b : bytes) :=
  (if DelayConn_delay rc >? 0
   then time_Sleep (DelayConn_delay rc) else ret tt) ;;
  call (DelayConn_conn rc) (fun c => Conn_Read c b).

Definition DelayConn_Write (rc : DelayConn) (b : bytes) :=
  (if DelayConn_delay rc >? 0
   then time_Sleep (DelayConn_delay rc) else ret tt) ;;
  call (DelayConn_conn rc) (fun c => Conn_Write c b).

Definition DelayConn_Close (rc : DelayConn) :=
  call (DelayConn_conn rc) Conn_Close.

Definition DelayConn_LocalAddr (rc : DelayConn) :=
  call (DelayConn_conn rc) Conn_LocalAddr.

Definition DelayConn_RemoteAddr (rc : DelayConn) :=
  call (DelayConn_conn rc) Conn_RemoteAddr.

Definition DelayConn_SetDeadline (rc : DelayConn) (t : time_Time) :=
  call (DelayConn_conn rc) (fun c => Conn_SetDeadline c t).

Definition DelayConn_SetReadDeadline (rc : DelayConn) (t : time_Time) :=
  call (DelayConn_conn rc) (fun c => Conn_SetReadDeadline c t).

Definition DelayConn_SetWriteDeadline (rc : DelayConn) (t : time_Time) :=
  call (DelayConn_conn rc) (fun c => Conn_SetWriteDeadline c t).

Definition DelayConn_Conn (rc : DelayConn) : net_Conn := {|
  Conn_Read := DelayConn_Read rc;
  Conn_Write := DelayConn_Write rc;
  Conn_Close := DelayConn_Close rc;
  Conn_LocalAddr := DelayConn_LocalAddr rc;
  Conn_RemoteAddr := DelayConn_RemoteAddr rc;
  Conn_SetDeadline := DelayConn_SetDeadline rc;
  Conn_SetReadDeadline := DelayConn_SetReadDeadline rc;
  Conn_SetWriteDeadline := DelayConn_SetWriteDeadline rc
|}.

(** ** Calling through the interface *)

(** [c.o(...)] for a method table [c]. *)
Definition invoke {A} (c : net_Conn) (o : op A) : M A :=
  match o in op T return M T with
  | OpRead b => Conn_Read c b
  | OpWrite b => Conn_Write c b
  | OpClose => Conn_Close c
  | OpLocalAddr => Conn_LocalAddr c
  | OpRemoteAddr => Conn_RemoteAddr c
  | OpSetDeadline t => Conn_SetDeadline c t
  | OpSetReadDeadline t => Conn_SetReadDeadline c t
  | OpSetWriteDeadline t => Conn_SetWriteDeadline c t
  end.

(** The wrappers of [delayconn.go], each with its constructor's arguments. *)
Inductive wrapper : Type :=
| W_OneByteWrite
| W_OneByteRead
| W_ReadDelay (d : time_Duration)
| W_WriteDelay (d : time_Duration)
| W_Delay (d : time_Duration).

Definition wrap (k : wrapper) (conn : option net_Conn) : net_Conn :=
  match k with
  | W_OneByteWrite => OneByteWriteConn_Conn (NewOneByteWriteConn conn)
  | W_OneByteRead => OneByteReadConn_Conn (NewOneByteReadConn conn)
  | W_ReadDelay d => ReadDelayConn_Conn (NewReadDelayConn d conn)
  | W_WriteDelay d => WriteDelayConn_Conn (NewWriteDelayConn d conn)
  | W_Delay d => DelayConn_Conn (NewDelayConn d conn)
  end.

(** ** PerWriteDelayConn *)

(** Modelled from the spec: [NewPerWriteDelayConn] and the type it returns
    are missing from the sources, only [TestPerWriteDelayConn] uses them.
    The wrapper holds a duration and a connection.  Its write makes one
    attempt per byte of the buffer, each a write of the remaining bytes
    through the Write-Delay wrapper (the sleep, if the duration is positive)
    around the Single-Byte Write wrapper (the cut to one byte); it adds up
    the counts of the attempts and stops at the first attempt that reports
    an error, returning the sum so far with that error. *)
Record PerWriteDelayConn : Type := {
  PerWriteDelayConn_delay : time_Duration;
  PerWriteDelayConn_conn : option net_Conn
}.

Definition NewPerWriteDelayConn (delay : time_Duration)
  (conn : option net_Conn) : PerWriteDelayConn :=
  {| PerWriteDelayConn_delay := delay; PerWriteDelayConn_conn := conn |}.

Definition PerWriteDelayConn_chunk (rc : PerWriteDelayConn) : net_Conn :=
  WriteDelayConn_Conn
    (NewWriteDelayConn (PerWriteDelayConn_delay rc)
       (Some (OneByteWriteConn_Conn
                (NewOneByteWriteConn (PerWriteDelayConn_conn rc))))).

Fixpoint PerWriteDelayConn_from (rc : PerWriteDelayConn) (total : Z)
  (b : bytes) : M (Z * error) :=
  match b with
  | [] => ret (total, None)
  | _ :: rest =>
      res <- Conn_Write (PerWriteDelayConn_chunk rc) b ;;
      match snd res with
      | Some e => ret (total + fst res, Some e)
      | None => PerWriteDelayConn_from rc (total + fst res) rest
      end
  end.

Definition PerWriteDelayConn_Write (rc : PerWriteDelayConn) (b : bytes)
  : M (Z * error) :=
  PerWriteDelayConn_from rc 0 b.

(** ** Vocabulary of the statements *)

(** The world in which a call delayed by [d] reaches the wrapped connection. *)
Definition after_delay (d : time_Duration) (w : World) : World :=
  if d >? 0
  then mkWorld (time_passes d (env w)) (trace w ++ [EvSleep d])
  else w.

(** [m] is one call of [o] on the connection [r] of the environment and
    nothing else: same result, same effect, one event. *)
Definition forwards {A} (m : M A) (r : RawConn Env) (o : op A) : Prop :=
  forall s t,
    m (mkWorld s t) =
    (Ok (fst (raw_invoke r o s)),
     mkWorld (snd (raw_invoke r o s)) (t ++ [event_of o])).

(** The [error] a call came back with, if it came back. *)
Definition err_of {A} (o : op A) (res : outcome A * World) : outcome error :=
  match fst res with
  | Ok a => Ok (op_err o a)
  | Panic => Panic
  end.

(** The io.Writer contract on one call: [0 <= n <= len(p)], and a count
    short of [len(p)] comes with an error. *)
Definition write_conforms (p : bytes) (res : Z * error) : Prop :=
  0 <= fst res <= Z.of_nat (length p) /\
  (fst res < Z.of_nat (length p) -> snd res <> None).

(** At least one byte can be read in state [s]: a read into a non-empty
    buffer stores between one byte and a bufferful and reports no error. *)
Definition available (r : RawConn Env) (s : Env) : Prop :=
  forall p, p <> [] ->
    exists q n s', raw_Read r p s = ((q, n, None), s') /\
                   1 <= n <= Z.of_nat (length p).

(** The environment during the per-chunk write: before each attempt the
    thread sleeps when [d > 0]. *)
Definition pause (d : time_Duration) (s : Env) : Env :=
  if d >? 0 then time_passes d s else s.

(** [accepts r d s b s']: fed the bytes of [b] one write at a time, each
    after a pause, the connection takes every one of them and ends in [s']. *)
Inductive accepts (r : RawConn Env) (d : time_Duration) : Env -> bytes -> Env -> Prop :=
| accepts_nil : forall s, accepts r d s [] s
| accepts_cons : forall s x rest s1 s2,
    raw_Write r [x] (pause d s) = ((1, None), s1) ->
    accepts r d s1 rest s2 ->
    accepts r d s (x :: rest) s2.

(** What a request becomes when it is cut to one byte: nothing for an empty
    buffer, the first byte otherwise. *)
Definition one_byte {A} (o : op A) : option (op A) :=
  match o in op T return option (op T) with
  | OpRead [] => None
  | OpRead (x :: _) => Some (OpRead [x])
  | OpWrite [] => None
  | OpWrite (x :: _) => Some (OpWrite [x])
  | o' => Some o'
  end.

(** The delegated call a method of a wrapper ends in: the request it makes
    (none when it returns without calling), the interface value it calls
    and the world in which the call is made. *)
Definition request (k : wrapper) {A} (o : op A) : option (op A) :=
  match k with
  | W_OneByteWrite => if is_write_op o then one_byte o else Some o
  | W_OneByteRead => if is_read_op o then one_byte o else Some o
  | _ => Some o
  end.

Definition callee (k : wrapper) (conn : option net_Conn) {A} (o : op A)
  : option net_Conn :=
  match k with
  | W_OneByteRead => if is_read_op o then conn else None
  | _ => conn
  end.

Definition arrival (k : wrapper) {A} (o : op A) (w : World) : World :=
  match k with
  | W_ReadDelay d => if is_read_op o then after_delay d w else w
  | W_WriteDelay d => if is_write_op o then after_delay d w else w
  | W_Delay d => if is_read_op o || is_write_op o then after_delay d w else w
  | _ => w
  end.

(** The events of one-byte attempts for the bytes of [b]. *)
Definition attempts (d : time_Duration) (b : bytes) : list Event :=
  flat_map (fun x => (if d >? 0 then [EvSleep d] else []) ++ [EvWrite [x]]) b.

(** * Properties *)

(** ** The monad and the boundary *)

Lemma outside_run {A} (e : Event) (f : Env -> A * Env) (s : Env) (t : list Event) :
  outside e f (mkWorld s t) = (Ok (fst (f s)), mkWorld (snd (f s)) (t ++ [e])).
Proof.
  unfold outside; simpl. destruct (f s); reflexivity.
Qed.

Lemma invoke_extern {A} (r : RawConn Env) (o : op A) (w : World) :
  invoke (extern r) o w = outside (event_of o) (raw_invoke r o) w.
Proof.
  destruct o; reflexivity.
Qed.

Lemma extern_forwards {A} (r : RawConn Env) (o : op A) :
  forwards (invoke (extern r) o) r o.
Proof.
  intros s t. rewrite invoke_extern. apply outside_run.
Qed.

(** A method that is one call on a connection of the environment sleeps
    not at all. *)
Lemma forwards_no_sleep {A} (m : M A) (r : RawConn Env) (o : op A) :
  forwards m r o ->
  forall s t, sleeps (trace (snd (m (mkWorld s t)))) = sleeps t.
Proof.
  intros Hm s t. rewrite Hm. unfold sleeps; simpl.
  rewrite filter_app. destruct o; simpl; apply app_nil_r.
Qed.

Lemma delay_arrives {A} (d : time_Duration) (m : M A) (w : World) :
  ((if d >? 0 then time_Sleep d else ret tt) ;; m) w = m (after_delay d w).
Proof.
  unfold after_delay. destruct (d >? 0); reflexivity.
Qed.

(** ** oneByteWriter and the one-byte reader *)

Lemma oneByteWriter_Write_nil (wr : oneByteWriter) (w : World) :
  oneByteWriter_Write wr [] w = (Ok (0, None), w).
Proof. reflexivity. Qed.

Lemma oneByteWriter_Write_cons (wr : option io_Writer) x rest (w : World) :
  oneByteWriter_Write {| oneByteWriter_w := wr |} (x :: rest) w =
  call wr (fun i => Writer_Write i [x]) w.
Proof. reflexivity. Qed.

Lemma OneByteWriteConn_Write_cons (conn : option net_Conn) x rest (w : World) :
  OneByteWriteConn_Write (NewOneByteWriteConn conn) (x :: rest) w =
  call conn (fun c => Conn_Write c [x]) w.
Proof.
  destruct conn; reflexivity.
Qed.

Lemma OneByteWriteConn_Write_nil (conn : option net_Conn) (w : World) :
  OneByteWriteConn_Write (NewOneByteWriteConn conn) [] w = (Ok (0, None), w).
Proof. reflexivity. Qed.

(** C4.  A write of the empty buffer through the fragmenting writer returns
    [(0, nil)] and leaves the world as it was: whatever writer is wrapped,
    even a nil one, no call reaches it and the trace gains no event. *)
Theorem oneByteWriter_empty_buffer :
  forall (wr : option io_Writer) (w : World),
    oneByteWriter_Write {| oneByteWriter_w := wr |} [] w = (Ok (0, None), w) /\
    call (OneByteWriter wr) (fun i => Writer_Write i []) w = (Ok (0, None), w).
Proof.
  intros wr w. split; reflexivity.
Qed.

(** ** The delay wrappers *)

Lemma ReadDelayConn_Read_arrives d conn b w :
  ReadDelayConn_Read (NewReadDelayConn d conn) b w =
  call conn (fun c => Conn_Read c b) (after_delay d w).
Proof. apply delay_arrives. Qed.

Lemma WriteDelayConn_Write_arrives d conn b w :
  WriteDelayConn_Write (NewWriteDelayConn d conn) b w =
  call conn (fun c => Conn_Write c b) (after_delay d w).
Proof. apply delay_arrives. Qed.

Lemma DelayConn_Read_arrives d conn b w :
  DelayConn_Read (NewDelayConn d conn) b w =
  call conn (fun c => Conn_Read c b) (after_delay d w).
Proof. apply delay_arrives. Qed.

Lemma DelayConn_Write_arrives d conn b w :
  DelayConn_Write (NewDelayConn d conn) b w =
  call conn (fun c => Conn_Write c b) (after_delay d w).
Proof. apply delay_arrives. Qed.

Lemma after_delay_nonpositive d w : d <= 0 -> after_delay d w = w.
Proof.
  intros Hd. unfold after_delay.
  destruct (Z.gtb_spec d 0); [lia|reflexivity].
Qed.

(** A delay wrapper whose duration is not positive is the wrapped
    connection, method by method. *)
Lemma delay_wrappers_nonpositive d conn {A} (o : op A) w :
  d <= 0 ->
  invoke (wrap (W_ReadDelay d) conn) o w = call conn (fun c => invoke c o) w /\
  invoke (wrap (W_WriteDelay d) conn) o w = call conn (fun c => invoke c o) w /\
  invoke (wrap (W_Delay d) conn) o w = call conn (fun c => invoke c o) w.
Proof.
  intros Hd.
  destruct o; simpl;
    rewrite ?ReadDelayConn_Read_arrives, ?WriteDelayConn_Write_arrives,
      ?DelayConn_Read_arrives, ?DelayConn_Write_arrives,
      ?after_delay_nonpositive by exact Hd;
    repeat split; destruct conn; reflexivity.
Qed.

(** C7.  With duration 0 the delayed operation of each delay wrapper is the
    call on the wrapped connection and nothing else.  First for any wrapped
    interface value, then for a connection of the environment, where the
    trace gains the one call event and no sleep event. *)
Theorem zero_delay_skips_sleep :
  forall (conn : option net_Conn) (r : RawConn Env) (b : bytes) (w : World),
    (ReadDelayConn_Read (NewReadDelayConn 0 conn) b w =
       call conn (fun c => Conn_Read c b) w /\
     WriteDelayConn_Write (NewWriteDelayConn 0 conn) b w =
       call conn (fun c => Conn_Write c b) w /\
     DelayConn_Read (NewDelayConn 0 conn) b w =
       call conn (fun c => Conn_Read c b) w /\
     DelayConn_Write (NewDelayConn 0 conn) b w =
       call conn (fun c => Conn_Write c b) w) /\
    (forwards (ReadDelayConn_Read (NewReadDelayConn 0 (Some (extern r))) b)
       r (OpRead b) /\
     forwards (WriteDelayConn_Write (NewWriteDelayConn 0 (Some (extern r))) b)
       r (OpWrite b) /\
     forwards (DelayConn_Read (NewDelayConn 0 (Some (extern r))) b)
       r (OpRead b) /\
     forwards (DelayConn_Write (NewDelayConn 0 (Some (extern r))) b)
       r (OpWrite b)).
Proof.
  intros conn r b w. split.
  - repeat split; reflexivity.
  - repeat split; intros s t;
      first [ apply (extern_forwards r (OpRead b))
            | apply (extern_forwards r (OpWrite b)) ].
Qed.

(** C8.  A Read-Delay wrapper hands every operation other than read, and a
    Write-Delay wrapper every operation other than write, straight to the
    wrapped connection, whatever the duration: same result and same effect
    for any wrapped interface value, and on a connection of the environment
    one call event and no sleep event. *)
Theorem delay_wrappers_frame :
  forall (d : time_Duration) (conn : option net_Conn) (r : RawConn Env)
         {A B} (o1 : op A) (o2 : op B) (w : World),
    is_read_op o1 = false ->
    is_write_op o2 = false ->
    invoke (wrap (W_ReadDelay d) conn) o1 w =
      call conn (fun c => invoke c o1) w /\
    invoke (wrap (W_WriteDelay d) conn) o2 w =
      call conn (fun c => invoke c o2) w /\
    forwards (invoke (wrap (W_ReadDelay d) (Some (extern r))) o1) r o1 /\
    forwards (invoke (wrap (W_WriteDelay d) (Some (extern r))) o2) r o2.
Proof.
  intros d conn r A B o1 o2 w H1 H2.
  repeat split.
  - destruct o1; try discriminate H1; destruct conn; reflexivity.
  - destruct o2; try discriminate H2; destruct conn; reflexivity.
  - intros s t. destruct o1; try discriminate H1;
      (etransitivity; [|apply extern_forwards]); reflexivity.
  - intros s t. destruct o2; try discriminate H2;
      (etransitivity; [|apply extern_forwards]); reflexivity.
Qed.

(** C10.  The constructors store a negative duration as it is, and the
    wrapper then behaves on every operation as the one built with 0, which
    is the wrapped connection itself: the guard [delay > 0] keeps the sleep
    away. *)
Theorem negative_delay_as_zero :
  forall (d : time_Duration) (conn : option net_Conn)
         {A} (o : op A) (w : World),
    d < 0 ->
    (ReadDelayConn_delay (NewReadDelayConn d conn) = d /\
     WriteDelayConn_delay (NewWriteDelayConn d conn) = d /\
     DelayConn_delay (NewDelayConn d conn) = d) /\
    (invoke (wrap (W_ReadDelay d) conn) o w =
       invoke (wrap (W_ReadDelay 0) conn) o w /\
     invoke (wrap (W_WriteDelay d) conn) o w =
       invoke (wrap (W_WriteDelay 0) conn) o w /\
     invoke (wrap (W_Delay d) conn) o w =
       invoke (wrap (W_Delay 0) conn) o w) /\
    (invoke (wrap (W_ReadDelay d) conn) o w =
       call conn (fun c => invoke c o) w /\
     invoke (wrap (W_WriteDelay d) conn) o w =
       call conn (fun c => invoke c o) w /\
     invoke (wrap (W_Delay d) conn) o w =
       call conn (fun c => invoke c o) w).
Proof.
  intros d conn A o w Hd.
  assert (Hneg : d <= 0) by lia.
  assert (Hzero : 0 <= 0) by lia.
  pose proof (delay_wrappers_nonpositive d conn o w Hneg) as (Ha & Hb & Hc).
  pose proof (delay_wrappers_nonpositive 0 conn o w Hzero) as (Ha0 & Hb0 & Hc0).
  repeat split; congruence.
Qed.

(** ** The single-byte wrappers *)

(** [NewOneByteReadConn] leaves the [conn] field nil, so every method of
    the wrapper that goes through it panics before anything is called. *)
Lemma OneByteReadConn_conn_nil (conn : option net_Conn) {A} (o : op A) w :
  is_read_op o = false ->
  invoke (wrap W_OneByteRead conn) o w = (Panic, w).
Proof.
  intros Ho. destruct o; try discriminate Ho; reflexivity.
Qed.

Lemma OneByteReadConn_Read_nil (conn : option net_Conn) (w : World) :
  OneByteReadConn_Read (NewOneByteReadConn conn) [] w = (Ok ([], 0, None), w).
Proof. reflexivity. Qed.

Lemma OneByteReadConn_Read_cons (conn : option net_Conn) x rest (w : World) :
  OneByteReadConn_Read (NewOneByteReadConn conn) (x :: rest) w =
  match call conn (fun c => Conn_Read c [x]) w with
  | (Ok (q, n, err), w') => (Ok (q ++ rest, n, err), w')
  | (Panic, w') => (Panic, w')
  end.
Proof.
  destruct conn as [c|]; [|reflexivity].
  unfold OneByteReadConn_Read, NewOneByteReadConn; simpl.
  unfold iotest_oneByteReader_Read; simpl.
  unfold bind; simpl.
  destruct (Conn_Read c [x] w) as [[[[q n] err]|] w']; reflexivity.
Qed.

(** Whatever the wrapper and the operation, the method either returns a nil
    error without calling (the one-byte wrappers on an empty buffer), or
    ends in the one call that [request], [callee] and [arrival] describe,
    with the error and the world of that call.  For the wrapper built by
    [NewOneByteReadConn] and an operation other than read the callee is the
    nil [conn] field, not the wrapped connection: there the call panics. *)
Lemma method_ends_in_callee :
  forall (k : wrapper) (conn : option net_Conn) {A} (o : op A) (w : World),
    match request k o with
    | Some o' =>
        err_of o (invoke (wrap k conn) o w) =
          err_of o' (call (callee k conn o) (fun c => invoke c o')
                       (arrival k o w)) /\
        snd (invoke (wrap k conn) o w) =
          snd (call (callee k conn o) (fun c => invoke c o') (arrival k o w))
    | None =>
        err_of o (invoke (wrap k conn) o w) = Ok None /\
        snd (invoke (wrap k conn) o w) = w
    end.
Proof.
  intros k conn A o w.
  destruct k.
  - (* OneByteWriteConn *)
    destruct o as [b|b| | | |t|t|t]; simpl; try (split; reflexivity).
    destruct b as [|x rest]; simpl; [split; reflexivity|].
    change (Conn_Write (wrap W_OneByteWrite conn))
      with (OneByteWriteConn_Write (NewOneByteWriteConn conn)).
    rewrite OneByteWriteConn_Write_cons. split; reflexivity.
  - (* OneByteReadConn *)
    destruct o as [b|b| | | |t|t|t]; simpl; try (split; reflexivity).
    destruct b as [|x rest]; simpl; [split; reflexivity|].
    change (Conn_Read (wrap W_OneByteRead conn))
      with (OneByteReadConn_Read (NewOneByteReadConn conn)).
    rewrite OneByteReadConn_Read_cons.
    destruct (call conn (fun c => Conn_Read c [x]) w) as [[[[q n] err]|] w'];
      split; reflexivity.
  - (* ReadDelayConn *)
    destruct o as [b|b| | | |t|t|t]; simpl; try (split; reflexivity).
    change (Conn_Read (wrap (W_ReadDelay d) conn))
      with (ReadDelayConn_Read (NewReadDelayConn d conn)).
    rewrite ReadDelayConn_Read_arrives. split; reflexivity.
  - (* WriteDelayConn *)
    destruct o as [b|b| | | |t|t|t]; simpl; try (split; reflexivity).
    change (Conn_Write (wrap (W_WriteDelay d) conn))
      with (WriteDelayConn_Write (NewWriteDelayConn d conn)).
    rewrite WriteDelayConn_Write_arrives. split; reflexivity.
  - (* DelayConn *)
    destruct o as [b|b| | | |t|t|t]; simpl; try (split; reflexivity).
    + change (Conn_Read (wrap (W_Delay d) conn))
        with (DelayConn_Read (NewDelayConn d conn)).
      rewrite DelayConn_Read_arrives. split; reflexivity.
    + change (Conn_Write (wrap (W_Delay d) conn))
        with (DelayConn_Write (NewDelayConn d conn)).
      rewrite DelayConn_Write_arrives. split; reflexivity.
Qed.

(** C5.  A write of a non-empty buffer through the Single-Byte Write
    wrapper, and through the fragmenting writer it holds, is one write call
    on the wrapped connection with the first byte alone, and returns what
    that call returns, whatever that is and however long the buffer.  When
    the wrapped writer keeps the io.Writer contract on that call, the count
    the wrapper returns is at most 1, and a nil error comes with count 1. *)
Theorem one_byte_write :
  forall (r : RawConn Env) (x : byte) (rest : bytes) (s : Env)
         (t : list Event),
    (OneByteWriteConn_Write (NewOneByteWriteConn (Some (extern r)))
       (x :: rest) (mkWorld s t) =
       (Ok (fst (raw_Write r [x] s)),
        mkWorld (snd (raw_Write r [x] s)) (t ++ [EvWrite [x]])) /\
     call (OneByteWriter (Conn_Writer (Some (extern r))))
       (fun i => Writer_Write i (x :: rest)) (mkWorld s t) =
       (Ok (fst (raw_Write r [x] s)),
        mkWorld (snd (raw_Write r [x] s)) (t ++ [EvWrite [x]])) /\
     (forall (conn : option net_Conn) (w : World),
        OneByteWriteConn_Write (NewOneByteWriteConn conn) (x :: rest) w =
        call conn (fun c => Conn_Write c [x]) w) /\
     (forall (wr : option io_Writer) (w : World),
        oneByteWriter_Write {| oneByteWriter_w := wr |} (x :: rest) w =
        call wr (fun i => Writer_Write i [x]) w)) /\
    (write_conforms [x] (fst (raw_Write r [x] s)) ->
     forall (n : Z) (err : error) (w' : World),
       OneByteWriteConn_Write (NewOneByteWriteConn (Some (extern r)))
         (x :: rest) (mkWorld s t) = (Ok (n, err), w') ->
       n <= 1 /\ (err = None -> n = 1)).
Proof.
  intros r x rest s t.
  assert (Hcall :
    OneByteWriteConn_Write (NewOneByteWriteConn (Some (extern r)))
      (x :: rest) (mkWorld s t) =
    (Ok (fst (raw_Write r [x] s)),
     mkWorld (snd (raw_Write r [x] s)) (t ++ [EvWrite [x]]))).
  { rewrite OneByteWriteConn_Write_cons. apply (outside_run (EvWrite [x])). }
  split; [split; [exact Hcall|split; [|split]]|].
  - apply (outside_run (EvWrite [x])).
  - intros conn w. apply OneByteWriteConn_Write_cons.
  - intros wr w. apply oneByteWriter_Write_cons.
  - intros [[Hlo Hhi] Hshort] n err w' Hres.
    rewrite Hcall in Hres.
    destruct (fst (raw_Write r [x] s)) as [n0 err0].
    injection Hres as Hn Herr _. subst n0 err0.
    cbn [fst snd length] in Hlo, Hhi, Hshort.
    split; [lia|].
    intros Hnil. destruct (Z.eq_dec n 1) as [|Hne]; [assumption|].
    exfalso. apply Hshort; [lia|exact Hnil].
Qed.

(** C6.  When the wrapped connection has at least one byte to give, a read
    into a non-empty buffer through the Single-Byte Read wrapper is one read
    call on the wrapped connection with a one-byte buffer; it returns
    [(1, nil)], the byte stored in front of the untouched rest, and so never
    more than 1 however long the buffer. *)
Theorem one_byte_read :
  forall (r : RawConn Env) (s : Env) (x : byte) (rest : bytes) (t : list Event),
    available r s ->
    exists q s',
      raw_Read r [x] s = ((q, 1, None), s') /\
      OneByteReadConn_Read (NewOneByteReadConn (Some (extern r)))
        (x :: rest) (mkWorld s t) =
        (Ok (q ++ rest, 1, None), mkWorld s' (t ++ [EvRead [x]])).
Proof.
  intros r s x rest t Hav.
  destruct (Hav [x]) as (q & n & s' & Hread & Hn); [discriminate|].
  simpl in Hn. assert (n = 1) by lia. subst n.
  exists q, s'. split; [assumption|].
  rewrite OneByteReadConn_Read_cons. simpl.
  rewrite (outside_run (EvRead [x])), Hread. reflexivity.
Qed.

(** ** The per-chunk write *)

Lemma PerWriteDelayConn_chunk_Write d (r : RawConn Env) x rest s t :
  Conn_Write (PerWriteDelayConn_chunk (NewPerWriteDelayConn d (Some (extern r))))
    (x :: rest) (mkWorld s t) =
  (Ok (fst (raw_Write r [x] (pause d s))),
   mkWorld (snd (raw_Write r [x] (pause d s)))
     (t ++ attempts d [x])).
Proof.
  unfold PerWriteDelayConn_chunk; simpl.
  rewrite WriteDelayConn_Write_arrives; simpl.
  change (OneByteWriteConn_Write
            (NewOneByteWriteConn (Some (extern r))) (x :: rest)
            (after_delay d (mkWorld s t)) =
          (Ok (fst (raw_Write r [x] (pause d s))),
           mkWorld (snd (raw_Write r [x] (pause d s)))
             (t ++ attempts d [x]))).
  rewrite OneByteWriteConn_Write_cons; simpl.
  unfold after_delay, pause, attempts; simpl.
  destruct (d >? 0); simpl; rewrite (outside_run (EvWrite [x])); simpl.
  - rewrite <- app_assoc. reflexivity.
  - reflexivity.
Qed.

Lemma attempts_app d b1 b2 : attempts d (b1 ++ b2) = attempts d b1 ++ attempts d b2.
Proof. apply flat_map_app. Qed.

Lemma attempts_writes d b : length (filter is_write (attempts d b)) = length b.
Proof.
  induction b as [|x rest IH]; [reflexivity|].
  change (attempts d (x :: rest)) with (attempts d ([x] ++ rest)).
  rewrite attempts_app, filter_app, length_app, IH.
  unfold attempts; simpl. destruct (d >? 0); reflexivity.
Qed.

Lemma attempts_sleeps d b :
  length (filter is_sleep (attempts d b)) = if d >? 0 then length b else 0%nat.
Proof.
  induction b as [|x rest IH]; [destruct (d >? 0); reflexivity|].
  change (attempts d (x :: rest)) with (attempts d ([x] ++ rest)).
  rewrite attempts_app, filter_app, length_app, IH.
  unfold attempts; simpl. destruct (d >? 0); reflexivity.
Qed.

(** While the connection takes every byte, the loop goes on with the count
    raised by one per byte. *)
Lemma PerWriteDelayConn_from_accepts d (r : RawConn Env) s b s1 :
  accepts r d s b s1 ->
  forall total t more,
    PerWriteDelayConn_from (NewPerWriteDelayConn d (Some (extern r))) total
      (b ++ more) (mkWorld s t) =
    PerWriteDelayConn_from (NewPerWriteDelayConn d (Some (extern r)))
      (total + Z.of_nat (length b)) more (mkWorld s1 (t ++ attempts d b)).
Proof.
  induction 1 as [s|s x rest s1 s2 Hw Hrest IH]; intros total t more.
  - simpl. rewrite Z.add_0_r, app_nil_r. reflexivity.
  - change ((x :: rest) ++ more) with (x :: (rest ++ more)).
    cbn [PerWriteDelayConn_from]. unfold bind.
    rewrite PerWriteDelayConn_chunk_Write, Hw. cbn [fst snd].
    rewrite IH.
    change (attempts d (x :: rest)) with (attempts d ([x] ++ rest)).
    rewrite attempts_app, app_assoc.
    f_equal. cbn [length]. lia.
Qed.

(** C2.  When the wrapped connection takes every byte of a buffer of
    length L, one write at a time, the write of the wrapper built by
    [NewPerWriteDelayConn] returns [(L, nil)]; the trace gains exactly the
    L one-byte write calls, in the order of the buffer (each after its sleep
    when the duration is positive). *)
Theorem per_chunk_write_all :
  forall (d : time_Duration) (r : RawConn Env) (b : bytes) (s s' : Env)
         (t : list Event),
    accepts r d s b s' ->
    PerWriteDelayConn_Write (NewPerWriteDelayConn d (Some (extern r))) b
      (mkWorld s t) =
      (Ok (Z.of_nat (length b), None), mkWorld s' (t ++ attempts d b)) /\
    filter is_write (attempts d b) = map (fun x => EvWrite [x]) b /\
    length (filter is_write (attempts d b)) = length b.
Proof.
  intros d r b s s' t Hacc. split; [|split].
  - unfold PerWriteDelayConn_Write.
    rewrite <- (app_nil_r b) at 1.
    rewrite (PerWriteDelayConn_from_accepts d r s b s' Hacc).
    reflexivity.
  - clear. induction b as [|x rest IH]; [reflexivity|].
    change (attempts d (x :: rest)) with (attempts d ([x] ++ rest)).
    rewrite attempts_app, filter_app, IH.
    unfold attempts; simpl. destruct (d >? 0); reflexivity.
  - apply attempts_writes.
Qed.

(** C3.  When the wrapped connection takes the first k-1 bytes and the k-th
    one-byte write comes back with count [n] and error [e], the write of the
    per-chunk wrapper returns the bytes written so far, [k-1+n], with [e];
    the trace gains the k attempts and nothing for the bytes after, and the
    world is left as the failed attempt left it. *)
Theorem per_chunk_write_stops :
  forall (d : time_Duration) (r : RawConn Env) (done : bytes) (x : byte)
         (todo : bytes) (s s1 s2 : Env) (n : Z) (e : goerror) (t : list Event),
    accepts r d s done s1 ->
    raw_Write r [x] (pause d s1) = ((n, Some e), s2) ->
    PerWriteDelayConn_Write (NewPerWriteDelayConn d (Some (extern r)))
      (done ++ x :: todo) (mkWorld s t) =
      (Ok (Z.of_nat (length done) + n, Some e),
       mkWorld s2 (t ++ attempts d (done ++ [x]))) /\
    length (filter is_write (attempts d (done ++ [x]))) = S (length done).
Proof.
  intros d r done x todo s s1 s2 n e t Hacc Hfail. split.
  - unfold PerWriteDelayConn_Write.
    rewrite (PerWriteDelayConn_from_accepts d r s done s1 Hacc).
    cbn [PerWriteDelayConn_from]. unfold bind.
    rewrite PerWriteDelayConn_chunk_Write, Hfail. cbn [fst snd].
    unfold ret. rewrite attempts_app, app_assoc. reflexivity.
  - rewrite attempts_writes, length_app. simpl. lia.
Qed.

(** ** Further properties of the wrappers *)

(** X1.  The Single-Byte Write wrapper built by [NewOneByteWriteConn] hands
    every operation other than write to the wrapped connection: same result
    and same effect for any wrapped interface value, and on a connection of
    the environment exactly the one call event. *)
Theorem OneByteWriteConn_frame :
  forall (conn : option net_Conn) (r : RawConn Env) {A} (o : op A)
         (w : World),
    is_write_op o = false ->
    invoke (wrap W_OneByteWrite conn) o w =
      call conn (fun c => invoke c o) w /\
    forwards (invoke (wrap W_OneByteWrite (Some (extern r))) o) r o.
Proof.
  intros conn r A o w Ho. split.
  - destruct o; try discriminate Ho; destruct conn; reflexivity.
  - intros s t. destruct o; try discriminate Ho;
      (etransitivity; [|apply extern_forwards]); reflexivity.
Qed.

(** X2.  The symmetric delay wrapper alters read and write only: close, the
    address accessors and the deadline setters go straight to the wrapped
    connection whatever the duration, without a sleep. *)
Theorem DelayConn_frame :
  forall (d : time_Duration) (conn : option net_Conn) (r : RawConn Env)
         {A} (o : op A) (w : World),
    is_read_op o = false ->
    is_write_op o = false ->
    invoke (wrap (W_Delay d) conn) o w = call conn (fun c => invoke c o) w /\
    forwards (invoke (wrap (W_Delay d) (Some (extern r))) o) r o.
Proof.
  intros d conn r A o w Hr Hw. split.
  - destruct o; try discriminate Hr; try discriminate Hw;
      destruct conn; reflexivity.
  - intros s t. destruct o; try discriminate Hr; try discriminate Hw;
      (etransitivity; [|apply extern_forwards]); reflexivity.
Qed.

Lemma after_delay_positive d s t :
  d > 0 ->
  after_delay d (mkWorld s t) = mkWorld (time_passes d s) (t ++ [EvSleep d]).
Proof.
  intros Hd. unfold after_delay.
  destruct (Z.gtb_spec d 0); [reflexivity|lia].
Qed.

(** X3.  With a positive duration the delayed operation of each delay
    wrapper sleeps exactly once, for exactly that duration, and only then
    calls the wrapped connection, once and with the caller's buffer: the
    call sees the environment as the sleep left it and its result is
    returned as it is. *)
Theorem positive_delay_sleeps_once :
  forall (d : time_Duration) (r : RawConn Env) (b : bytes) (s : Env)
         (t : list Event),
    d > 0 ->
    ReadDelayConn_Read (NewReadDelayConn d (Some (extern r))) b (mkWorld s t) =
      (Ok (fst (raw_Read r b (time_passes d s))),
       mkWorld (snd (raw_Read r b (time_passes d s)))
         (t ++ [EvSleep d; EvRead b])) /\
    WriteDelayConn_Write (NewWriteDelayConn d (Some (extern r))) b
      (mkWorld s t) =
      (Ok (fst (raw_Write r b (time_passes d s))),
       mkWorld (snd (raw_Write r b (time_passes d s)))
         (t ++ [EvSleep d; EvWrite b])) /\
    DelayConn_Read (NewDelayConn d (Some (extern r))) b (mkWorld s t) =
      (Ok (fst (raw_Read r b (time_passes d s))),
       mkWorld (snd (raw_Read r b (time_passes d s)))
         (t ++ [EvSleep d; EvRead b])) /\
    DelayConn_Write (NewDelayConn d (Some (extern r))) b (mkWorld s t) =
      (Ok (fst (raw_Write r b (time_passes d s))),
       mkWorld (snd (raw_Write r b (time_passes d s)))
         (t ++ [EvSleep d; EvWrite b])).
Proof.
  intros d r b s t Hd.
  rewrite ReadDelayConn_Read_arrives, WriteDelayConn_Write_arrives,
    DelayConn_Read_arrives, DelayConn_Write_arrives.
  rewrite (after_delay_positive d s t Hd). simpl.
  rewrite (outside_run (EvRead b)), (outside_run (EvWrite b)). simpl.
  rewrite <- !app_assoc. simpl.
  repeat split; reflexivity.
Qed.

(** X4.  The constructors take a nil connection without complaint; the
    failure comes at the first use.  A delayed operation first sleeps (when
    the duration is positive) and then panics; the one-byte operations
    return [(0, nil)] on an empty buffer and panic on any other. *)
Theorem nil_connection_fails_at_use :
  forall (d : time_Duration) (b : bytes) (x : byte) (rest : bytes)
         (w : World),
    ReadDelayConn_Read (NewReadDelayConn d None) b w =
      (Panic, after_delay d w) /\
    WriteDelayConn_Write (NewWriteDelayConn d None) b w =
      (Panic, after_delay d w) /\
    DelayConn_Read (NewDelayConn d None) b w = (Panic, after_delay d w) /\
    DelayConn_Write (NewDelayConn d None) b w = (Panic, after_delay d w) /\
    OneByteWriteConn_Write (NewOneByteWriteConn None) [] w =
      (Ok (0, None), w) /\
    OneByteWriteConn_Write (NewOneByteWriteConn None) (x :: rest) w =
      (Panic, w) /\
    OneByteReadConn_Read (NewOneByteReadConn None) [] w =
      (Ok ([], 0, None), w) /\
    OneByteReadConn_Read (NewOneByteReadConn None) (x :: rest) w =
      (Panic, w).
Proof.
  intros d b x rest w.
  rewrite ReadDelayConn_Read_arrives, WriteDelayConn_Write_arrives,
    DelayConn_Read_arrives, DelayConn_Write_arrives.
  repeat split; reflexivity.
Qed.

(** X5.  A read through the Single-Byte Read wrapper into a non-empty buffer
    is one read call on the wrapped connection with a buffer of the first
    byte alone, whatever that call returns: its count and error come back
    unchanged, what it stored replaces the first byte, and the bytes after
    the first are not touched.  A read into an empty buffer returns
    [(0, nil)] without any call. *)
Theorem OneByteReadConn_Read_one_call :
  forall (conn : option net_Conn) (r : RawConn Env) (x : byte)
         (rest : bytes) (s : Env) (t : list Event) (w : World),
    OneByteReadConn_Read (NewOneByteReadConn (Some (extern r))) (x :: rest)
      (mkWorld s t) =
      (Ok (fst (fst (fst (raw_Read r [x] s))) ++ rest,
           snd (fst (fst (raw_Read r [x] s))),
           snd (fst (raw_Read r [x] s))),
       mkWorld (snd (raw_Read r [x] s)) (t ++ [EvRead [x]])) /\
    OneByteReadConn_Read (NewOneByteReadConn conn) [] w =
      (Ok ([], 0, None), w).
Proof.
  intros conn r x rest s t w. split; [|reflexivity].
  rewrite OneByteReadConn_Read_cons. simpl.
  rewrite (outside_run (EvRead [x])).
  destruct (raw_Read r [x] s) as [[[q n] err] s']. reflexivity.
Qed.

(** X6.  Wrapping twice in the Single-Byte Write wrapper is the same as
    wrapping once, on every operation and every buffer. *)
Theorem OneByteWriteConn_twice :
  forall (conn : option net_Conn) {A} (o : op A) (w : World),
    invoke (wrap W_OneByteWrite (Some (wrap W_OneByteWrite conn))) o w =
    invoke (wrap W_OneByteWrite conn) o w.
Proof.
  intros conn A o w.
  destruct o as [b|b| | | |t|t|t]; try reflexivity.
  destruct b as [|x rest]; reflexivity.
Qed.

(** X7.  The symmetric delay wrapper is the Read-Delay wrapper around the
    Write-Delay wrapper of the same duration, and the other way round, on
    every operation. *)
Theorem DelayConn_is_both :
  forall (d : time_Duration) (conn : option net_Conn) {A} (o : op A)
         (w : World),
    invoke (wrap (W_Delay d) conn) o w =
      invoke (wrap (W_ReadDelay d) (Some (wrap (W_WriteDelay d) conn))) o w /\
    invoke (wrap (W_Delay d) conn) o w =
      invoke (wrap (W_WriteDelay d) (Some (wrap (W_ReadDelay d) conn))) o w.
Proof.
  intros d conn A o w.
  destruct o; split; reflexivity.
Qed.

(** X8.  Nested delay wrappers add their delays: a read through a
    Read-Delay wrapper of [d1] around one of [d2], both positive, sleeps
    [d1], then [d2], then makes the one read call; a write through nested
    Write-Delay wrappers likewise. *)
Theorem nested_delays_add :
  forall (d1 d2 : time_Duration) (r : RawConn Env) (b : bytes) (s : Env)
         (t : list Event),
    d1 > 0 ->
    d2 > 0 ->
    ReadDelayConn_Read
      (NewReadDelayConn d1
         (Some (ReadDelayConn_Conn (NewReadDelayConn d2 (Some (extern r))))))
      b (mkWorld s t) =
      (Ok (fst (raw_Read r b (time_passes d2 (time_passes d1 s)))),
       mkWorld (snd (raw_Read r b (time_passes d2 (time_passes d1 s))))
         (t ++ [EvSleep d1; EvSleep d2; EvRead b])) /\
    WriteDelayConn_Write
      (NewWriteDelayConn d1
         (Some (WriteDelayConn_Conn (NewWriteDelayConn d2 (Some (extern r))))))
      b (mkWorld s t) =
      (Ok (fst (raw_Write r b (time_passes d2 (time_passes d1 s)))),
       mkWorld (snd (raw_Write r b (time_passes d2 (time_passes d1 s))))
         (t ++ [EvSleep d1; EvSleep d2; EvWrite b])).
Proof.
  intros d1 d2 r b s t H1 H2.
  rewrite ReadDelayConn_Read_arrives, WriteDelayConn_Write_arrives.
  rewrite (after_delay_positive d1 s t H1). simpl.
  change (Conn_Read (ReadDelayConn_Conn (NewReadDelayConn d2 (Some (extern r)))))
    with (ReadDelayConn_Read (NewReadDelayConn d2 (Some (extern r)))).
  change (Conn_Write (WriteDelayConn_Conn (NewWriteDelayConn d2 (Some (extern r)))))
    with (WriteDelayConn_Write (NewWriteDelayConn d2 (Some (extern r)))).
  rewrite ReadDelayConn_Read_arrives, WriteDelayConn_Write_arrives.
  rewrite (after_delay_positive d2 _ _ H2). simpl.
  rewrite (outside_run (EvRead b)), (outside_run (EvWrite b)). simpl.
  rewrite <- !app_assoc. simpl.
  split; reflexivity.
Qed.


(** X10.  When the wrapped connection writes the first byte, a write of two
    or more bytes through the Single-Byte Write wrapper returns [(1, nil)]:
    a count short of the buffer with a nil error, which the io.Writer
    contract does not allow.  The wrapper is a short writer on purpose. *)
Theorem OneByteWriteConn_short_write :
  forall (r : RawConn Env) (x y : byte) (rest : bytes) (s : Env)
         (t : list Event),
    fst (raw_Write r [x] s) = (1, None) ->
    fst (OneByteWriteConn_Write (NewOneByteWriteConn (Some (extern r)))
           (x :: y :: rest) (mkWorld s t)) = Ok (1, None) /\
    ~ write_conforms (x :: y :: rest) (1, None).
Proof.
  intros r x y rest s t Hone. split.
  - rewrite OneByteWriteConn_Write_cons. simpl.
    rewrite (outside_run (EvWrite [x])), Hone. reflexivity.
  - intros [_ Hshort]. apply Hshort; [|reflexivity].
    cbn [fst length]. lia.
Qed.

End Conn.

(** * The statements on the connections of the tests *)


Lemma rwconn_available (x : byte) (rest out : bytes) :
  available Test.rwconn {| Test.unread := x :: rest; Test.written := out |}.
Proof.
  intros p Hp. destruct p as [|y p']; [congruence|].
  do 3 eexists. split; [reflexivity|].
  cbn [length Test.unread]. lia.
Qed.

(** C1.  On the connection of the tests, each method of the wrapper built
    by [NewOneByteReadConn] other than Read panics on the nil [conn] field
    and leaves the world untouched, where the same method called on the
    wrapped connection returns. *)
Theorem OneByteReadConn_forwarding_panics :
  let rc := NewOneByteReadConn (Some (extern Test.rwconn)) in
  let c := extern Test.rwconn in
  let w := mkWorld Test.fresh [] in
  (OneByteReadConn_Write rc [x68] w = (Panic, w) /\
   fst (Conn_Write c [x68] w) = Ok (1, None)) /\
  (OneByteReadConn_Close rc w = (Panic, w) /\
   fst (Conn_Close c w) = Ok None) /\
  (OneByteReadConn_LocalAddr rc w = (Panic, w) /\
   fst (Conn_LocalAddr c w) = Ok Test.TCPAddr_zero) /\
  (OneByteReadConn_RemoteAddr rc w = (Panic, w) /\
   fst (Conn_RemoteAddr c w) = Ok Test.TCPAddr_zero) /\
  (OneByteReadConn_SetDeadline rc 0 w = (Panic, w) /\
   fst (Conn_SetDeadline c 0 w) = Ok None) /\
  (OneByteReadConn_SetReadDeadline rc 0 w = (Panic, w) /\
   fst (Conn_SetReadDeadline c 0 w) = Ok None) /\
  (OneByteReadConn_SetWriteDeadline rc 0 w = (Panic, w) /\
   fst (Conn_SetWriteDeadline c 0 w) = Ok None).
Proof.
  repeat split; reflexivity.
Qed.

(** C9.  Over a connection that reports [net.ErrClosed] on every method,
    the wrapper built by [NewOneByteReadConn] passes the error on for Read
    only.  Write, Close and the three deadline setters do not return the
    error of the wrapped connection: they panic on the nil [conn] field and
    the wrapped connection is never called. *)
Theorem OneByteReadConn_loses_errors :
  let c := extern Test.closed in
  let rc := NewOneByteReadConn (Some c) in
  let w := mkWorld tt [] in
  (fst (Conn_Read c [x00] w) = Ok ([x00], 0, Some net_ErrClosed) /\
   OneByteReadConn_Read rc [x00] w =
     (Ok ([x00], 0, Some net_ErrClosed), mkWorld tt [EvRead [x00]])) /\
  (fst (Conn_Write c [x68] w) = Ok (0, Some net_ErrClosed) /\
   OneByteReadConn_Write rc [x68] w = (Panic, w)) /\
  (fst (Conn_Close c w) = Ok (Some net_ErrClosed) /\
   OneByteReadConn_Close rc w = (Panic, w)) /\
  (fst (Conn_SetDeadline c 0 w) = Ok (Some net_ErrClosed) /\
   OneByteReadConn_SetDeadline rc 0 w = (Panic, w)) /\
  (fst (Conn_SetReadDeadline c 0 w) = Ok (Some net_ErrClosed) /\
   OneByteReadConn_SetReadDeadline rc 0 w = (Panic, w)) /\
  (fst (Conn_SetWriteDeadline c 0 w) = Ok (Some net_ErrClosed) /\
   OneByteReadConn_SetWriteDeadline rc 0 w = (Panic, w)).
Proof.
  repeat split; reflexivity.
Qed.

(** ** Instances of the conditional statements *)

Lemma per_chunk_write_all_witness :
  accepts Test.still Test.rwconn Test.ms
    Test.fresh
    [x01; x02; x03]
    {| Test.unread := Test.haha; Test.written := [x01; x02; x03] |} /\
  PerWriteDelayConn_Write Test.still
    (NewPerWriteDelayConn Test.ms (Some (extern Test.rwconn)))
    [x01; x02; x03] (mkWorld Test.fresh []) =
  (Ok (3, None),
   mkWorld {| Test.unread := Test.haha; Test.written := [x01; x02; x03] |}
     [EvSleep Test.ms; EvWrite [x01]; EvSleep Test.ms; EvWrite [x02];
      EvSleep Test.ms; EvWrite [x03]]).
Proof.
  assert (H : accepts Test.still Test.rwconn Test.ms
                Test.fresh
                [x01; x02; x03]
                {| Test.unread := Test.haha; Test.written := [x01; x02; x03] |}).
  { eapply accepts_cons; [reflexivity|].
    eapply accepts_cons; [reflexivity|].
    eapply accepts_cons; [reflexivity|].
    apply accepts_nil. }
  split; [exact H|].
  exact (proj1 (per_chunk_write_all Test.still Test.ms Test.rwconn
                  [x01; x02; x03] _ _ [] H)).
Defined.

Lemma per_chunk_write_stops_witness :
  accepts Test.idle Test.hangup Test.ms 2%nat [x01; x02] 0%nat /\
  raw_Write Test.hangup [x03] (pause Test.idle Test.ms 0%nat) =
    ((0, Some net_ErrClosed), 0%nat) /\
  PerWriteDelayConn_Write Test.idle
    (NewPerWriteDelayConn Test.ms (Some (extern Test.hangup)))
    [x01; x02; x03; x04] (mkWorld 2%nat []) =
  (Ok (2, Some net_ErrClosed),
   mkWorld 0%nat
     [EvSleep Test.ms; EvWrite [x01]; EvSleep Test.ms; EvWrite [x02];
      EvSleep Test.ms; EvWrite [x03]]).
Proof.
  assert (H : accepts Test.idle Test.hangup Test.ms 2%nat [x01; x02] 0%nat).
  { eapply accepts_cons; [reflexivity|].
    eapply accepts_cons; [reflexivity|].
    apply accepts_nil. }
  assert (F : raw_Write Test.hangup [x03] (pause Test.idle Test.ms 0%nat) =
              ((0, Some net_ErrClosed), 0%nat)) by reflexivity.
  split; [exact H|]. split; [exact F|].
  exact (proj1 (per_chunk_write_stops Test.idle Test.ms Test.hangup
                  [x01; x02] x03 [x04] 2%nat 0%nat 0%nat 0 net_ErrClosed []
                  H F)).
Defined.

Lemma one_byte_write_witness :
  write_conforms [x68] (fst (raw_Write Test.rwconn [x68] Test.empty)) /\
  OneByteWriteConn_Write
    (NewOneByteWriteConn (Some (extern Test.rwconn))) Test.haha
    (mkWorld Test.empty []) =
  (Ok (1, None),
   mkWorld {| Test.unread := []; Test.written := [x68] |} [EvWrite [x68]]) /\
  (1 <= 1 /\ (@None goerror = None -> 1 = 1)).
Proof.
  assert (H : write_conforms [x68]
                (fst (raw_Write Test.rwconn [x68] Test.empty))).
  { unfold write_conforms; simpl. repeat split; lia. }
  split; [exact H|].
  split.
  - exact (proj1 (proj1 (one_byte_write Test.rwconn x68 [x61; x68; x61]
                           Test.empty []))).
  - exact (proj2 (one_byte_write Test.rwconn x68 [x61; x68; x61]
                    Test.empty []) H 1 None
             (mkWorld {| Test.unread := []; Test.written := [x68] |}
                [EvWrite [x68]]) eq_refl).
Defined.

Lemma one_byte_read_witness :
  available Test.rwconn Test.fresh /\
  exists q s',
    raw_Read Test.rwconn [x00]
      Test.fresh = ((q, 1, None), s') /\
    OneByteReadConn_Read (NewOneByteReadConn (Some (extern Test.rwconn)))
      [x00; x00; x00] (mkWorld Test.fresh []) =
    (Ok (q ++ [x00; x00], 1, None), mkWorld s' [EvRead [x00]]).
Proof.
  split; [apply rwconn_available|].
  exact (one_byte_read Test.rwconn
           Test.fresh
           x00 [x00; x00] [] (rwconn_available x68 [x61; x68; x61] [])).
Defined.

Lemma delay_wrappers_frame_witness :
  is_read_op (OpWrite [x68]) = false /\
  is_write_op (OpRead [x00]) = false /\
  invoke (wrap Test.still (W_ReadDelay Test.ms) (Some (extern Test.rwconn)))
    (OpWrite [x68]) (mkWorld Test.fresh []) =
  call (Some (extern Test.rwconn)) (fun c => invoke c (OpWrite [x68]))
    (mkWorld Test.fresh []) /\
  invoke (wrap Test.still (W_WriteDelay Test.ms) (Some (extern Test.rwconn)))
    (OpRead [x00]) (mkWorld Test.fresh []) =
  call (Some (extern Test.rwconn)) (fun c => invoke c (OpRead [x00]))
    (mkWorld Test.fresh []).
Proof.
  split; [reflexivity|]. split; [reflexivity|].
  pose proof (delay_wrappers_frame Test.still Test.ms
                (Some (extern Test.rwconn)) Test.rwconn
                (OpWrite [x68]) (OpRead [x00]) (mkWorld Test.fresh [])
                eq_refl eq_refl) as (H1 & H2 & _).
  split; [exact H1|exact H2].
Defined.

Lemma negative_delay_as_zero_witness :
  -5 < 0 /\
  invoke (wrap Test.still (W_ReadDelay (-5)) (Some (extern Test.rwconn)))
    (OpRead [x00]) (mkWorld Test.fresh []) =
  invoke (wrap Test.still (W_ReadDelay 0) (Some (extern Test.rwconn)))
    (OpRead [x00]) (mkWorld Test.fresh []).
Proof.
  split; [lia|].
  exact (proj1 (proj1 (proj2 (negative_delay_as_zero Test.still (-5)
           (Some (extern Test.rwconn)) (OpRead [x00]) (mkWorld Test.fresh [])
           ltac:(lia))))).
Defined.

(** ** The single-byte wrappers over the buffers of the tests *)

(** X11.  Over the connection of the tests, a write of any non-empty buffer
    through the Single-Byte Write wrapper returns [(1, nil)] and appends the
    first byte, and nothing else, to the write buffer; the read buffer is
    left alone.  [TestOneByteWriteConn] checks this for 1024 zero bytes. *)
Theorem OneByteWriteConn_over_buffers :
  forall (x : byte) (rest unread out : bytes) (t : list Event),
    OneByteWriteConn_Write (NewOneByteWriteConn (Some (extern Test.rwconn)))
      (x :: rest)
      (mkWorld {| Test.unread := unread; Test.written := out |} t) =
    (Ok (1, None),
     mkWorld {| Test.unread := unread; Test.written := out ++ [x] |}
       (t ++ [EvWrite [x]])).
Proof.
  intros x rest unread out t.
  rewrite OneByteWriteConn_Write_cons. reflexivity.
Qed.

(** X12.  Over the connection of the tests, a read into any non-empty
    buffer through the Single-Byte Read wrapper takes exactly the first
    unread byte: it returns [(1, nil)] with that byte in front of the
    untouched rest of the buffer and leaves the bytes after it unread, in
    order.  When nothing is unread it returns [(0, io.EOF)] and the buffer
    as it was.  [TestOneByteReadConn] checks the count for the source
    [haha] and a buffer of 1024 bytes. *)
Theorem OneByteReadConn_over_buffers :
  forall (x y : byte) (rest ys out : bytes) (t : list Event),
    OneByteReadConn_Read (NewOneByteReadConn (Some (extern Test.rwconn)))
      (x :: rest)
      (mkWorld {| Test.unread := y :: ys; Test.written := out |} t) =
    (Ok (y :: rest, 1, None),
     mkWorld {| Test.unread := ys; Test.written := out |}
       (t ++ [EvRead [x]])) /\
    OneByteReadConn_Read (NewOneByteReadConn (Some (extern Test.rwconn)))
      (x :: rest)
      (mkWorld {| Test.unread := []; Test.written := out |} t) =
    (Ok (x :: rest, 0, Some io_EOF),
     mkWorld {| Test.unread := []; Test.written := out |}
       (t ++ [EvRead [x]])).
Proof.
  intros x y rest ys out t.
  rewrite !OneByteReadConn_Read_cons. split; reflexivity.
Qed.

(** ** Instances of the further conditional statements *)

Lemma OneByteWriteConn_frame_witness :
  is_write_op OpClose = false /\
  invoke (wrap Test.still W_OneByteWrite (Some (extern Test.rwconn)))
    OpClose (mkWorld Test.fresh []) =
  (Ok None, mkWorld Test.fresh [EvClose]).
Proof.
  split; [reflexivity|].
  exact (proj1 (OneByteWriteConn_frame Test.still
                  (Some (extern Test.rwconn)) Test.rwconn OpClose
                  (mkWorld Test.fresh []) eq_refl)).
Defined.

Lemma DelayConn_frame_witness :
  is_read_op (OpSetDeadline 7) = false /\
  is_write_op (OpSetDeadline 7) = false /\
  invoke (wrap Test.still (W_Delay Test.ms) (Some (extern Test.rwconn)))
    (OpSetDeadline 7) (mkWorld Test.fresh []) =
  (Ok None, mkWorld Test.fresh [EvSetDeadline 7]).
Proof.
  split; [reflexivity|]. split; [reflexivity|].
  exact (proj1 (DelayConn_frame Test.still Test.ms
                  (Some (extern Test.rwconn)) Test.rwconn (OpSetDeadline 7)
                  (mkWorld Test.fresh []) eq_refl eq_refl)).
Defined.

Lemma positive_delay_sleeps_once_witness :
  Test.ms > 0 /\
  WriteDelayConn_Write Test.still
    (NewWriteDelayConn Test.ms (Some (extern Test.rwconn))) [x68; x61]
    (mkWorld Test.empty []) =
  (Ok (2, None),
   mkWorld {| Test.unread := []; Test.written := [x68; x61] |}
     [EvSleep Test.ms; EvWrite [x68; x61]]).
Proof.
  assert (H : Test.ms > 0) by reflexivity.
  split; [exact H|].
  exact (proj1 (proj2 (positive_delay_sleeps_once Test.still Test.ms
                         Test.rwconn [x68; x61] Test.empty [] H))).
Defined.

Lemma nested_delays_add_witness :
  Test.ms > 0 /\
  2 * Test.ms > 0 /\
  WriteDelayConn_Write Test.still
    (NewWriteDelayConn Test.ms
       (Some (WriteDelayConn_Conn Test.still
                (NewWriteDelayConn (2 * Test.ms)
                   (Some (extern Test.rwconn))))))
    [x68] (mkWorld Test.empty []) =
  (Ok (1, None),
   mkWorld {| Test.unread := []; Test.written := [x68] |}
     [EvSleep Test.ms; EvSleep (2 * Test.ms); EvWrite [x68]]).
Proof.
  assert (H1 : Test.ms > 0) by reflexivity.
  assert (H2 : 2 * Test.ms > 0) by reflexivity.
  split; [exact H1|]. split; [exact H2|].
  exact (proj2 (nested_delays_add Test.still Test.ms (2 * Test.ms)
                  Test.rwconn [x68] Test.empty [] H1 H2)).
Defined.

Lemma OneByteWriteConn_short_write_witness :
  fst (raw_Write Test.rwconn [x68] Test.empty) = (1, None) /\
  fst (OneByteWriteConn_Write
         (NewOneByteWriteConn (Some (extern Test.rwconn))) Test.haha
         (mkWorld Test.empty [])) = Ok (1, None) /\
  ~ write_conforms Test.haha (1, None).
Proof.
  assert (H : fst (raw_Write Test.rwconn [x68] Test.empty) = (1, None))
    by reflexivity.
  split; [exact H|].
  exact (OneByteWriteConn_short_write Test.rwconn x68 x61 [x68; x61]
           Test.empty [] H).
Defined.

